(** * iTwinUI-react: [HeaderButton] and [TableCell]

    A shallow embedding of the two components under
    [src/core/Header/HeaderButton.tsx] and [src/core/Table/TableCell.tsx],
    and the properties of their prop assembly, variant dispatch, expander
    placement and indentation.

    Conventions of the embedding.
    - A JavaScript value is a [JSValue].  Numbers are the integers among the
      doubles (row depths, paddings and indices are exact there), so they are
      carried as [Z]; functions are opaque handles.
    - An object that the code spreads, destructures or reads by key is a
      [gmap string JSValue]; [{...a, ...b}] is [b ∪ a] (stdpp's union keeps
      the left operand on a collision, the spread keeps the later one).
    - A JSX expression [<T a=x>{c}</T>] is [JElem T attrs], with [attrs] the
      attribute object of the expression and the children under the key
      [children]: one child is stored as it is, several as an array. *)

From stdpp Require Import gmap strings list fin_maps pretty.

Set Warnings "-register-all".

Local Open Scope string_scope.
Local Open Scope Z_scope.

(** ** JavaScript values *)

Module JS.

(** What a JSX tag can name: a host tag, the fragment [<>...</>], or one of
    the button primitives imported from [../Buttons]. *)
Inductive ElemType :=
| HostTag (tag : string)
| FragmentT
| ButtonC
| DropdownButtonC
| SplitButtonC.

Inductive JSValue :=
| JUndefined
| JNull
| JBool (b : bool)
| JNum (n : Z)
| JStr (s : string)
| JFun (f : nat)
| JArr (l : list JSValue)
| JObj (o : gmap string JSValue)
| JElem (ty : ElemType) (attrs : gmap string JSValue).

#[global] Instance ElemType_eq_dec : EqDecision ElemType.
Proof. solve_decision. Defined.

(** [o.k]: a key that is missing reads as [undefined]. *)
Definition get (o : gmap string JSValue) (k : string) : JSValue :=
  default JUndefined (o !! k).

(** [!!v] *)
Definition truthy (v : JSValue) : bool :=
  match v with
  | JUndefined | JNull => false
  | JBool b => b
  | JNum n => negb (n =? 0)
  | JStr s => negb (String.eqb s "")
  | JFun _ | JArr _ | JObj _ | JElem _ _ => true
  end.

(** [a && b] *)
Definition js_and (a b : JSValue) : JSValue :=
  if truthy a then b else a.

(** [c ? a : b] *)
Definition js_cond (c a b : JSValue) : JSValue :=
  if truthy c then a else b.

(** [...(c && o)] inside an object literal, for a boolean [c] and an object
    [o]: the keys of [o] when [c] holds; [false] spreads to nothing. *)
Definition spread_when (c : bool) (o : gmap string JSValue)
  : gmap string JSValue :=
  if c then o else ∅.

(** [React.isValidElement] *)
Definition isValidElement (v : JSValue) : bool :=
  match v with
  | JElem _ _ => true
  | _ => false
  end.

(** [element.props]; read on valid elements only. *)
Definition props_of (v : JSValue) : gmap string JSValue :=
  match v with
  | JElem _ attrs => attrs
  | _ => ∅
  end.

(** [React.cloneElement(element, config)]: the same element type, the
    attributes of [config] laid over the element's own.  The code calls it
    on valid elements only. *)
Definition cloneElement (element : JSValue) (config : gmap string JSValue)
  : JSValue :=
  match element with
  | JElem ty attrs => JElem ty (config ∪ attrs)
  | other => other
  end.

(** *** The [classnames] package ([cx])

    An argument is a class value or an object literal whose keys are class
    names switched by their values; the literal keeps its keys in source
    order, which is the order of the classes in the result.  Falsy values
    add nothing, strings and numbers add themselves, arrays are flattened,
    an object value adds its keys with truthy values (in the order of the
    map), [true] and a function add nothing.  (A React element is not a
    class value of the package; it adds nothing here.) *)
Inductive ClassArg :=
| CxVal (v : JSValue)
| CxDict (d : list (string * JSValue)).

Fixpoint cx_value (v : JSValue) : list string :=
  match v with
  | JStr s => if truthy v then [s] else []
  | JNum n => if truthy v then [pretty n] else []
  | JArr l =>
      (fix go (l : list JSValue) : list string :=
         match l with
         | [] => []
         | x :: r => (cx_value x ++ go r)%list
         end) l
  | JObj o => (map_to_list (filter (λ kv, truthy kv.2 = true) o)).*1
  | _ => []
  end.

Definition cx_dict (d : list (string * JSValue)) : list string :=
  (filter (λ kv, truthy kv.2 = true) d).*1.

Definition cx_arg (a : ClassArg) : list string :=
  match a with
  | CxVal v => cx_value v
  | CxDict d => cx_dict d
  end.

(** The classes in order, before they are joined. *)
Definition cx_classes (args : list ClassArg) : list string :=
  concat (cx_arg <$> args).

Definition cx (args : list ClassArg) : string :=
  String.concat " " (cx_classes args).

End JS.

Import JS.

(** ** [HeaderButton] *)

Module HeaderButton.

(** [!!props.menuItems && !!props.onClick] *)
Definition isSplitButton (props : gmap string JSValue) : bool :=
  truthy (get props "menuItems") && truthy (get props "onClick").

(** [!!props.menuItems] *)
Definition isDropdownButton (props : gmap string JSValue) : bool :=
  truthy (get props "menuItems").

(** The keys that the destructuring of [props] names; [...rest] is what is
    left of [props] without them. *)
Definition destructured : list string :=
  ["name"; "description"; "isActive"; "className"; "startIcon"; "menuItems"].

Definition rest (props : gmap string JSValue) : gmap string JSValue :=
  foldr delete props destructured.

(** [isActive = false]: the default stands in for [undefined]. *)
Definition isActive_or_default (props : gmap string JSValue) : JSValue :=
  match get props "isActive" with
  | JUndefined => JBool false
  | v => v
  end.

(** The object literal [buttonProps]; [ref] is the second argument of the
    [forwardRef] callback.  ([useTheme()] is called for its effect on the
    theme and returns nothing that [buttonProps] reads.) *)
Definition buttonProps (props : gmap string JSValue) (ref : JSValue)
  : gmap string JSValue :=
  let name := get props "name" in
  let description := get props "description" in
  let isActive := isActive_or_default props in
  let className := get props "className" in
  let startIcon := get props "startIcon" in
  let menuItems := get props "menuItems" in
  let literal : gmap string JSValue :=
    {[ "startIcon" :=
         (if isValidElement startIcon
          then cloneElement startIcon
                 {[ "className" :=
                      JStr (cx [CxVal (JStr "iui-header-button-icon");
                                CxVal (get (props_of startIcon) "className")]) ]}
          else JUndefined);
       "styleType" := JStr "borderless";
       "className" :=
         JStr (cx [CxDict [("iui-header-button", JBool (negb (isSplitButton props)));
                           ("iui-header-split-button", JBool (isSplitButton props));
                           ("iui-active", isActive)];
                   CxVal className]);
       "aria-current" := js_cond isActive (JStr "location") JUndefined;
       "children" :=
         JElem FragmentT
           {[ "children" :=
                JArr [JElem (HostTag "div") {[ "children" := name ]};
                      js_and description
                        (JElem (HostTag "div")
                           {[ "className" := JStr "iui-description";
                              "children" := description ]})] ]};
       "ref" := ref ]} in
  rest props
  ∪ (spread_when (truthy menuItems) {[ "menuItems" := menuItems ]}
     ∪ literal).

Definition HeaderButton (props : gmap string JSValue) (ref : JSValue)
  : JSValue :=
  let buttonProps := buttonProps props ref in
  if isSplitButton buttonProps then JElem SplitButtonC buttonProps
  else if isDropdownButton buttonProps then JElem DropdownButtonC buttonProps
  else JElem ButtonC buttonProps.

(** The component a rendered element names. *)
Definition component (v : JSValue) : option ElemType :=
  match v with
  | JElem ty _ => Some ty
  | _ => None
  end.

(** *** Reading the assembled props *)

Ltac key_in := apply (bool_decide_unpack _); vm_compute; exact I.
Ltac key_out := apply (bool_decide_eq_false_1 _); vm_compute; reflexivity.

Lemma lookup_foldr_delete (m : gmap string JSValue) (ks : list string) (k : string) :
  foldr delete m ks !! k = if decide (k ∈ ks) then None else m !! k.
Proof.
  induction ks as [|k' ks IH]; simpl.
  - destruct (decide (k ∈ [])) as [H|H]; [by apply elem_of_nil in H | done].
  - rewrite lookup_delete, IH.
    destruct (decide (k' = k)) as [->|Hne].
    + rewrite decide_True by left. done.
    + destruct (decide (k ∈ ks)) as [Hin|Hnin].
      * rewrite decide_True by (by right). done.
      * rewrite decide_False; [done|]. intros [->|?]%elem_of_cons; done.
Qed.

Lemma rest_lookup (props : gmap string JSValue) (k : string) :
  rest props !! k = if decide (k ∈ destructured) then None else props !! k.
Proof. apply lookup_foldr_delete. Qed.

Lemma rest_lookup_destructured (props : gmap string JSValue) (k : string) :
  k ∈ destructured → rest props !! k = None.
Proof. intros H. rewrite rest_lookup. by case_decide. Qed.

Lemma rest_lookup_other (props : gmap string JSValue) (k : string) :
  k ∉ destructured → rest props !! k = props !! k.
Proof. intros H. rewrite rest_lookup. by case_decide. Qed.

Lemma buttonProps_menuItems (props : gmap string JSValue) (ref : JSValue) :
  buttonProps props ref !! "menuItems" =
  if truthy (get props "menuItems") then Some (get props "menuItems") else None.
Proof.
  unfold buttonProps. cbv zeta.
  rewrite lookup_union_r by (apply rest_lookup_destructured; key_in).
  destruct (truthy (get props "menuItems")); simpl spread_when.
  - apply lookup_union_Some_l. apply lookup_singleton_eq.
  - rewrite lookup_union_r by apply lookup_empty. reflexivity.
Qed.

Lemma buttonProps_onClick (props : gmap string JSValue) (ref : JSValue) :
  buttonProps props ref !! "onClick" = props !! "onClick".
Proof.
  unfold buttonProps. cbv zeta.
  destruct (props !! "onClick") as [v|] eqn:E.
  - apply lookup_union_Some_l. by rewrite rest_lookup_other by key_out.
  - rewrite lookup_union_r by (by rewrite rest_lookup_other by key_out).
    destruct (truthy (get props "menuItems")); simpl spread_when.
    + rewrite lookup_union_r by (by apply lookup_singleton_ne).
      reflexivity.
    + rewrite lookup_union_r by apply lookup_empty. reflexivity.
Qed.

Lemma buttonProps_isSplitButton (props : gmap string JSValue) (ref : JSValue) :
  isSplitButton (buttonProps props ref) = isSplitButton props.
Proof.
  unfold isSplitButton, get.
  rewrite buttonProps_menuItems, buttonProps_onClick. fold (get props "menuItems").
  destruct (truthy (get props "menuItems")) eqn:E; simpl; [by rewrite E | done].
Qed.

Lemma buttonProps_isDropdownButton (props : gmap string JSValue) (ref : JSValue) :
  isDropdownButton (buttonProps props ref) = isDropdownButton props.
Proof.
  unfold isDropdownButton, get at 1.
  rewrite buttonProps_menuItems.
  destruct (truthy (get props "menuItems")) eqn:E; simpl; [by rewrite E | done].
Qed.

(** The dispatch of [HeaderButton] in terms of the caller's props. *)
Lemma HeaderButton_dispatch (props : gmap string JSValue) (ref : JSValue) :
  HeaderButton props ref =
  JElem (if isSplitButton props then SplitButtonC
         else if isDropdownButton props then DropdownButtonC
         else ButtonC)
        (buttonProps props ref).
Proof.
  unfold HeaderButton. cbv zeta.
  rewrite buttonProps_isSplitButton, buttonProps_isDropdownButton.
  destruct (isSplitButton props), (isDropdownButton props); reflexivity.
Qed.

(** C3. The variant is decided by the two presence tests alone.  Menu items
    and a click handler give the split-action primitive, although such a
    descriptor also passes the dropdown test; menu items without a click
    handler give the dropdown-menu primitive; anything else gives the plain
    button.  Every descriptor therefore renders exactly one of the three
    primitives, each time over the assembled props. *)
Theorem HeaderButton_variant_total_exclusive
    (props : gmap string JSValue) (ref : JSValue) :
  let menu := truthy (get props "menuItems") in
  let click := truthy (get props "onClick") in
  let out := HeaderButton props ref in
  (menu = true ∧ click = true ∧ out = JElem SplitButtonC (buttonProps props ref)
   ∨ menu = true ∧ click = false ∧ out = JElem DropdownButtonC (buttonProps props ref)
   ∨ menu = false ∧ out = JElem ButtonC (buttonProps props ref))
  ∧ (isSplitButton (buttonProps props ref) = true
     → isDropdownButton (buttonProps props ref) = true
       ∧ component out = Some SplitButtonC)
  ∧ (exists! ty, ty ∈ [ButtonC; DropdownButtonC; SplitButtonC]
            ∧ component out = Some ty).
Proof.
  cbv zeta. rewrite HeaderButton_dispatch.
  rewrite buttonProps_isSplitButton, buttonProps_isDropdownButton.
  unfold isSplitButton, isDropdownButton.
  destruct (truthy (get props "menuItems")), (truthy (get props "onClick"));
    simpl; (split; [|split]);
    try (intros ?; done); try tauto.
  all: eexists; split;
    [ split; [|reflexivity]; key_in
    | intros ty [_ H]; by injection H ].
Qed.

(** *** The menu-items field *)

(** The field is forwarded exactly when its value is truthy. *)
Lemma buttonProps_menuItems_omitted (props : gmap string JSValue) (ref : JSValue) :
  buttonProps props ref !! "menuItems" = None
  ↔ truthy (get props "menuItems") = false.
Proof.
  rewrite buttonProps_menuItems.
  destruct (truthy (get props "menuItems")); split; intros; done.
Qed.

(** A descriptor with a label and an empty list of menu items. *)
Definition empty_menu_props : gmap string JSValue :=
  {[ "name" := JStr "Project A"; "menuItems" := JArr [] ]}.

(** C4, as stated, fails: an empty array is truthy, so [!!menuItems] lets it
    through.  For the descriptor with [menuItems = []] and no click handler
    the field is forwarded and the dropdown-menu primitive is rendered, not
    the plain button. *)
Lemma empty_menuItems_forwarded_as_dropdown :
  buttonProps empty_menu_props JNull !! "menuItems" = Some (JArr [])
  ∧ component (HeaderButton empty_menu_props JNull) = Some DropdownButtonC
  ∧ component (HeaderButton empty_menu_props JNull) ≠ Some ButtonC.
Proof. split; [|split]; [reflexivity | reflexivity | discriminate]. Qed.

(** C4, amended.  An empty list of menu items counts as present: it is
    forwarded unchanged to the primitive, and the descriptor renders the
    split-action primitive when a click handler is present and the
    dropdown-menu primitive otherwise. *)
Theorem empty_menuItems_counts_as_present
    (props : gmap string JSValue) (ref : JSValue) :
  get props "menuItems" = JArr [] →
  buttonProps props ref !! "menuItems" = Some (JArr [])
  ∧ component (HeaderButton props ref) =
    Some (if truthy (get props "onClick") then SplitButtonC else DropdownButtonC).
Proof.
  intros E. split.
  - rewrite buttonProps_menuItems, E. reflexivity.
  - rewrite HeaderButton_dispatch. unfold isSplitButton, isDropdownButton.
    rewrite E. simpl. by destruct (truthy (get props "onClick")).
Qed.

(** The amended C4 at the descriptor above. *)
Lemma empty_menuItems_counts_as_present_witness :
  get empty_menu_props "menuItems" = JArr []
  ∧ buttonProps empty_menu_props JNull !! "menuItems" = Some (JArr [])
  ∧ component (HeaderButton empty_menu_props JNull) = Some DropdownButtonC.
Proof.
  split; [reflexivity|].
  exact (empty_menuItems_counts_as_present empty_menu_props JNull eq_refl).
Defined.

(** *** The leading icon *)

Lemma buttonProps_startIcon (props : gmap string JSValue) (ref : JSValue) :
  buttonProps props ref !! "startIcon" =
  Some (if isValidElement (get props "startIcon")
        then cloneElement (get props "startIcon")
               {[ "className" :=
                    JStr (cx [CxVal (JStr "iui-header-button-icon");
                              CxVal (get (props_of (get props "startIcon"))
                                         "className")]) ]}
        else JUndefined).
Proof.
  unfold buttonProps. cbv zeta.
  rewrite lookup_union_r by (apply rest_lookup_destructured; key_in).
  destruct (truthy (get props "menuItems")); simpl spread_when.
  - rewrite lookup_union_r by (by apply lookup_singleton_ne). reflexivity.
  - rewrite lookup_union_r by apply lookup_empty. reflexivity.
Qed.

Lemma get_buttonProps_startIcon (props : gmap string JSValue) (ref : JSValue) :
  get (buttonProps props ref) "startIcon" =
  if isValidElement (get props "startIcon")
  then cloneElement (get props "startIcon")
         {[ "className" :=
              JStr (cx [CxVal (JStr "iui-header-button-icon");
                        CxVal (get (props_of (get props "startIcon"))
                                   "className")]) ]}
  else JUndefined.
Proof. unfold get at 1. by rewrite buttonProps_startIcon. Qed.

(** What [cx] makes of the sizing class and a class the icon carries. *)
Lemma cx_icon_class_string (c : string) :
  c ≠ "" →
  cx [CxVal (JStr "iui-header-button-icon"); CxVal (JStr c)]
  = "iui-header-button-icon " +:+ c.
Proof.
  intros Hc. unfold cx, cx_classes. simpl.
  destruct (String.eqb c "") eqn:E; [by apply String.eqb_eq in E|].
  simpl. destruct c; [done|reflexivity].
Qed.

Lemma cx_icon_class_undefined :
  cx [CxVal (JStr "iui-header-button-icon"); CxVal JUndefined]
  = "iui-header-button-icon".
Proof. reflexivity. Qed.

(** A descriptor whose leading icon is a string, not an element. *)
Definition raw_icon_props : gmap string JSValue :=
  {[ "name" := JStr "Project C"; "startIcon" := JStr "project.png" ]}.

(** C5, as stated, fails in its second half: a leading icon that is not a
    valid element is replaced by [undefined], it is not passed through. *)
Lemma non_element_startIcon_dropped :
  get raw_icon_props "startIcon" = JStr "project.png"
  ∧ get (buttonProps raw_icon_props JNull) "startIcon" = JUndefined
  ∧ get (props_of (HeaderButton raw_icon_props JNull)) "startIcon"
    ≠ JStr "project.png".
Proof. split; [|split]; [reflexivity | reflexivity | discriminate]. Qed.

(** C5, amended.  A leading icon that is a valid element is carried as the
    same element with the icon-sizing class merged into its class: the
    class is [cx] of the sizing class and the icon's own, which for an icon
    with a class [c] reads [iui-header-button-icon c] and for an icon
    without one [iui-header-button-icon]; the icon's other attributes are
    kept.  A leading icon that is not a valid element is replaced by
    [undefined]. *)
Theorem startIcon_assembly (props : gmap string JSValue) (ref : JSValue) :
  let icon := get props "startIcon" in
  let out := get (buttonProps props ref) "startIcon" in
  (∀ ty attrs, icon = JElem ty attrs →
     out = JElem ty
             (<["className" :=
                  JStr (cx [CxVal (JStr "iui-header-button-icon");
                            CxVal (get attrs "className")])]> attrs))
  ∧ (∀ ty attrs c, icon = JElem ty attrs →
       get attrs "className" = JStr c → c ≠ "" →
       get (props_of out) "className" = JStr ("iui-header-button-icon " +:+ c))
  ∧ (∀ ty attrs, icon = JElem ty attrs →
       get attrs "className" = JUndefined →
       get (props_of out) "className" = JStr "iui-header-button-icon")
  ∧ (∀ ty attrs k, icon = JElem ty attrs → k ≠ "className" →
       component out = Some ty ∧ props_of out !! k = attrs !! k)
  ∧ (isValidElement icon = false → out = JUndefined).
Proof.
  cbv zeta. rewrite get_buttonProps_startIcon.
  split; [|split; [|split; [|split]]].
  - intros ty attrs ->. simpl. by rewrite insert_union_singleton_l.
  - intros ty attrs c -> Hc Hne. simpl. unfold get at 1.
    rewrite lookup_union_Some_l with (x := JStr ("iui-header-button-icon " +:+ c));
      [done|].
    rewrite lookup_singleton_eq, Hc. by rewrite cx_icon_class_string.
  - intros ty attrs -> Hc. simpl. unfold get at 1.
    rewrite lookup_union_Some_l with (x := JStr "iui-header-button-icon"); [done|].
    rewrite lookup_singleton_eq, Hc. reflexivity.
  - intros ty attrs k -> Hk. simpl. split; [done|].
    rewrite lookup_union_r; [done|]. by apply lookup_singleton_ne.
  - by intros ->.
Qed.

(** *** Pass-through attributes *)

(** A descriptor that also supplies [children]. *)
Definition children_props : gmap string JSValue :=
  {[ "name" := JStr "Project A"; "children" := JStr "X" ]}.

(** C6, as stated, fails for [children]: the key is not destructured, so it
    stays in [rest] and, spread last, replaces the computed children. *)
Lemma children_overridden_by_rest :
  rest children_props !! "children" = Some (JStr "X")
  ∧ get (buttonProps children_props JNull) "children" = JStr "X"
  ∧ get (props_of (HeaderButton children_props JNull)) "children" = JStr "X".
Proof. repeat split. Qed.

(** C6, amended.  The pass-through attributes are the caller's props without
    the six destructured keys; they are spread last, so a caller-supplied
    value wins over the computed default for every field it collides with,
    [children] included.  The composed class name is always the computed
    one: [className] is destructured and never is a pass-through
    attribute. *)
Theorem rest_wins_className_computed
    (props : gmap string JSValue) (ref : JSValue) :
  (∀ k v, rest props !! k = Some v → buttonProps props ref !! k = Some v)
  ∧ (∀ k, rest props !! k =
          if decide (k ∈ destructured) then None else props !! k)
  ∧ (∀ v, props !! "children" = Some v →
          buttonProps props ref !! "children" = Some v)
  ∧ rest props !! "className" = None
  ∧ buttonProps props ref !! "className" =
    Some (JStr (cx [CxDict [("iui-header-button",
                             JBool (negb (isSplitButton props)));
                            ("iui-header-split-button",
                             JBool (isSplitButton props));
                            ("iui-active", isActive_or_default props)];
                    CxVal (get props "className")])).
Proof.
  assert (Hrest : ∀ k v, rest props !! k = Some v →
                         buttonProps props ref !! k = Some v).
  { intros k v H. unfold buttonProps. cbv zeta. by apply lookup_union_Some_l. }
  repeat split.
  - exact Hrest.
  - apply rest_lookup.
  - intros v H. apply Hrest. by rewrite rest_lookup_other by key_out.
  - apply rest_lookup_destructured. key_in.
  - unfold buttonProps. cbv zeta.
    rewrite lookup_union_r by (apply rest_lookup_destructured; key_in).
    destruct (truthy (get props "menuItems")); simpl spread_when.
    + rewrite lookup_union_r by (by apply lookup_singleton_ne). reflexivity.
    + rewrite lookup_union_r by apply lookup_empty. reflexivity.
Qed.

(** *** The documented example *)

(** The classes of a [class] attribute: its words between spaces. *)
Fixpoint class_words (cur s : string) : list string :=
  match s with
  | EmptyString => if String.eqb cur "" then [] else [cur]
  | String c s' =>
      if Ascii.eqb c (Ascii.ascii_of_nat 32)
      then (if String.eqb cur "" then class_words "" s'
            else cur :: class_words "" s')
      else class_words (cur +:+ String c "") s'
  end.

Definition has_class (c : string) (className : JSValue) : bool :=
  match className with
  | JStr s => bool_decide (c ∈ class_words "" s)
  | _ => false
  end.

(** [<HeaderButton name='Project A' description='0n00434' menuItems={...} />],
    with the active flag left out ([None]) or given. *)
Definition project_a_props (item1 item2 : JSValue) (active : option bool)
  : gmap string JSValue :=
  let base : gmap string JSValue :=
    {[ "name" := JStr "Project A";
       "description" := JStr "0n00434";
       "menuItems" := JArr [item1; item2] ]} in
  match active with
  | None => base
  | Some b => <["isActive" := JBool b]> base
  end.

Definition project_a_children : JSValue :=
  JElem FragmentT
    {[ "children" :=
         JArr [JElem (HostTag "div") {[ "children" := JStr "Project A" ]};
               JElem (HostTag "div")
                 {[ "className" := JStr "iui-description";
                    "children" := JStr "0n00434" ]}] ]}.

(** C7. Label [Project A], description [0n00434], two menu items and no
    click handler render the dropdown-menu primitive; its children are a
    [div] with the label followed by a [div] of class [iui-description] with
    the description.  With the active flag false (or left out) the class is
    [iui-header-button] alone and [aria-current] is [undefined]; with the
    flag true the class gains [iui-active] and [aria-current] is
    [location]. *)
Theorem project_a_scenario (item1 item2 ref : JSValue) :
  (∀ active, active ∈ [None; Some false] →
     let out := HeaderButton (project_a_props item1 item2 active) ref in
     component out = Some DropdownButtonC
     ∧ get (props_of out) "menuItems" = JArr [item1; item2]
     ∧ get (props_of out) "children" = project_a_children
     ∧ get (props_of out) "className" = JStr "iui-header-button"
     ∧ has_class "iui-active" (get (props_of out) "className") = false
     ∧ get (props_of out) "aria-current" = JUndefined)
  ∧ (let out := HeaderButton (project_a_props item1 item2 (Some true)) ref in
     component out = Some DropdownButtonC
     ∧ get (props_of out) "menuItems" = JArr [item1; item2]
     ∧ get (props_of out) "children" = project_a_children
     ∧ get (props_of out) "className" = JStr "iui-header-button iui-active"
     ∧ has_class "iui-active" (get (props_of out) "className") = true
     ∧ get (props_of out) "aria-current" = JStr "location").
Proof.
  split.
  - intros active Hin.
    assert (active = None ∨ active = Some false) as [-> | ->].
    { apply elem_of_cons in Hin as [->|Hin]; [by left|].
      apply elem_of_cons in Hin as [->|Hin]; [by right|].
      by apply elem_of_nil in Hin. }
    all: repeat split.
  - repeat split.
Qed.

End HeaderButton.

(** ** [TableCell] *)

Module TableCell.

(** The table engine's objects, with the properties [TableCell] reads.  A
    function-valued property is a handle ([None] for [undefined]); every
    other property of an object travels in its [..._other] field. *)
Record Column := {
  id : string;
  cellClassName : JSValue;
  cellRenderer : option nat;
  column_other : gmap string JSValue;
}.

Inductive Cell := mkCell {
  column : Column;
  value : JSValue;
  row : Row;
}
with Row := mkRow {
  depth : Z;
  canExpand : bool;
  cells : list Cell;
}.

Record TableState := {
  isTableResizing : JSValue;
  state_other : gmap string JSValue;
}.

Record TableInstance := {
  state : TableState;
  instance_other : gmap string JSValue;
}.

Record TableCellProps := {
  cell : Cell;
  cellIndex : Z;
  isDisabled : bool;
  tableHasSubRows : bool;
  tableInstance : TableInstance;
  expanderCell : option nat;
}.

(** [{...tableInstance, cell, row: cell.row, value: cell.value,
    column: cell.column}] *)
Record CellProps := {
  cp_tableInstance : TableInstance;
  cp_cell : Cell;
  cp_row : Row;
  cp_value : JSValue;
  cp_column : Column;
}.

(** What [TableCell] and its collaborators render.  [RFalse] is the value
    of a short-circuited [&&] chain, which React renders as nothing;
    [RNode] is a node made elsewhere. *)
Inductive ReactNode :=
| RFalse
| RNode (v : JSValue)
| RFragment (children : list ReactNode)
| RSubRowExpander (cell : Cell) (isDisabled : bool) (cellProps : CellProps)
    (expanderCell : option nat)
| RDefaultCell (cellElementProps : gmap string JSValue)
    (cellProps : CellProps) (children : ReactNode).

Record CellRendererProps := {
  cellElementProps : gmap string JSValue;
  cellProps : CellProps;
  children : ReactNode;
}.

(** *** Rendering as a state transformer

    The state is the props object with everything reachable from it: the
    cell, its row and column, and the table instance.  [TableCell] and the
    functions it calls take the state and give it back. *)
Definition M (A : Type) : Type := TableCellProps → A * TableCellProps.

Definition ret {A} (a : A) : M A := λ s, (a, s).

Definition bind {A B} (m : M A) (f : A → M B) : M B :=
  λ s, let (a, s') := m s in f a s'.

(** A read of the current state. *)
Definition reads {A} (f : TableCellProps → A) : M A := λ s, (f s, s).

Notation "'let*' x ':=' m 'in' k" := (bind m (λ x, k))
  (at level 10, x name, m at level 100, k at level 200,
   format "'[v' 'let*'  x  :=  m  'in'  '/' k ']'").

(** [Array.prototype.findIndex]: the index of the first element that passes
    [p], or [-1]. *)
Fixpoint findIndex_from {A} (p : A → bool) (l : list A) (i : Z) : Z :=
  match l with
  | [] => -1
  | x :: r => if p x then i else findIndex_from p r (i + 1)
  end.

Definition findIndex {A} (p : A → bool) (l : list A) : Z :=
  findIndex_from p l 0.

(** [{...style}] for a style that may be [undefined]. *)
Definition spread_style (style : option (gmap string JSValue))
  : gmap string JSValue :=
  match style with
  | Some o => o
  | None => ∅
  end.

Section Render.

(** [SELECTION_CELL_ID] of [./hooks]. *)
Variable SELECTION_CELL_ID : string.

(** The collaborators that live outside this file: [getCellStyle] of
    [./utils] (an [undefined] result spreads like the empty object and is
    carried as [∅]), the methods [cell.getCellProps] and [cell.render] of
    the table engine, and the call of a column's [cellRenderer]. *)
Variable getCellStyle : Column → bool → M (gmap string JSValue).
Variable getCellProps : gmap string JSValue → M (gmap string JSValue).
Variable render : string → M ReactNode.
Variable callCellRenderer : nat → CellRendererProps → M ReactNode.

(** [cellIndex === cell.row.cells.findIndex((c) => c.column.id !==
    SELECTION_CELL_ID)] *)
Definition hasSubRowExpander (cellIndex : Z) (cell : Cell) : bool :=
  cellIndex =?
  findIndex (λ c, negb (String.eqb (id (column c)) SELECTION_CELL_ID))
            (cells (row cell)).

Definition getSubRowStyle (tableHasSubRows hasSubRowExpander : bool)
    (cell : Cell) : option (gmap string JSValue) :=
  if negb tableHasSubRows || negb hasSubRowExpander then None
  else Some {[ "paddingLeft" :=
                 JNum (16 + (depth (row cell)
                             + (if canExpand (row cell) then 0 else 1)) * 35) ]}.

(** The [style] handed to [cell.getCellProps]. *)
Definition cellStyle (base : gmap string JSValue)
    (subRowStyle : option (gmap string JSValue)) : gmap string JSValue :=
  spread_style subRowStyle ∪ base.

(** [const cellElementProps = cell.getCellProps({ className, style })] *)
Definition cellElementProps_of (tableHasSubRows hasSubRowExpander : bool)
  : M (gmap string JSValue) :=
  let* className :=
    reads (λ s, cx [CxVal (JStr "iui-cell");
                    CxVal (cellClassName (column (cell s)))]) in
  let* col := reads (λ s, column (cell s)) in
  let* resizing :=
    reads (λ s, truthy (isTableResizing (state (tableInstance s)))) in
  let* base := getCellStyle col resizing in
  let* subRowStyle :=
    reads (λ s, getSubRowStyle tableHasSubRows hasSubRowExpander (cell s)) in
  getCellProps {[ "className" := JStr className;
                  "style" := JObj (cellStyle base subRowStyle) ]}.

(** [const cellProps = { ...tableInstance, cell, row, value, column }] *)
Definition cellProps_of : M CellProps :=
  reads (λ s, {| cp_tableInstance := tableInstance s;
                 cp_cell := cell s;
                 cp_row := row (cell s);
                 cp_value := value (cell s);
                 cp_column := column (cell s) |}).

(** [tableHasSubRows && hasSubRowExpander && cell.row.canExpand &&
    <SubRowExpander ... />] *)
Definition expander_of (tableHasSubRows hasSubRowExpander isDisabled : bool)
    (expanderCell : option nat) (cellProps : CellProps) : M ReactNode :=
  reads (λ s, if tableHasSubRows && hasSubRowExpander && canExpand (row (cell s))
              then RSubRowExpander (cell s) isDisabled cellProps expanderCell
              else RFalse).

(** [const cellContent = <>{expander}{cell.render('Cell')}</>] *)
Definition cellContent_of (tableHasSubRows hasSubRowExpander isDisabled : bool)
    (expanderCell : option nat) (cellProps : CellProps) : M ReactNode :=
  let* expander :=
    expander_of tableHasSubRows hasSubRowExpander isDisabled expanderCell
      cellProps in
  let* rendered := render "Cell" in
  ret (RFragment [expander; rendered]).

Definition TableCell : M ReactNode :=
  let* props := reads (λ s, s) in
  let cellIndex := cellIndex props in
  let isDisabled := isDisabled props in
  let tableHasSubRows := tableHasSubRows props in
  let expanderCell := expanderCell props in
  let* hasSubRowExpander := reads (λ s, hasSubRowExpander cellIndex (cell s)) in
  let* cellElementProps := cellElementProps_of tableHasSubRows hasSubRowExpander in
  let* cellProps := cellProps_of in
  let* cellContent :=
    cellContent_of tableHasSubRows hasSubRowExpander isDisabled expanderCell
      cellProps in
  let cellRendererProps :=
    {| cellElementProps := cellElementProps;
       cellProps := cellProps;
       children := cellContent |} in
  let* renderer := reads (λ s, cellRenderer (column (cell s))) in
  match renderer with
  | Some f =>
      let* result := callCellRenderer f cellRendererProps in
      ret (RFragment [result])
  | None =>
      ret (RFragment [RDefaultCell cellElementProps cellProps cellContent])
  end.

(** *** Indentation *)

(** C1. Without sub-rows in the table, or for a cell that is not the
    expansion anchor, [getSubRowStyle] gives no style and the cell's style
    is the base style, whatever the row's depth.  Otherwise the style sets
    [paddingLeft] to [16 + (depth + (canExpand ? 0 : 1)) * 35] and nothing
    else: [16 + (d + 1) * 35] for a row at depth [d] that cannot expand,
    [16 + d * 35] for one that can. *)
Theorem getSubRowStyle_padding
    (tableHasSubRows : bool) (cellIndex : Z) (cell : Cell)
    (base : gmap string JSValue) :
  let d := depth (row cell) in
  let anchor := hasSubRowExpander cellIndex cell in
  let style := getSubRowStyle tableHasSubRows anchor cell in
  (tableHasSubRows = false ∨ anchor = false →
     style = None ∧ cellStyle base style = base)
  ∧ (tableHasSubRows = true → anchor = true →
       style = Some {[ "paddingLeft" :=
                         JNum (16 + (d + (if canExpand (row cell) then 0 else 1))
                                    * 35) ]}
       ∧ (canExpand (row cell) = false →
            cellStyle base style !! "paddingLeft" = Some (JNum (16 + (d + 1) * 35)))
       ∧ (canExpand (row cell) = true →
            cellStyle base style !! "paddingLeft" = Some (JNum (16 + d * 35)))
       ∧ (∀ k, k ≠ "paddingLeft" → cellStyle base style !! k = base !! k)).
Proof.
  cbv zeta. unfold getSubRowStyle, cellStyle. split.
  - intros [-> | ->]; simpl; rewrite ?orb_true_r; simpl;
      (split; [done | by rewrite (left_id_L ∅ (∪))]).
  - intros -> ->. simpl. split; [done|]. split; [|split].
    + intros ->. apply lookup_union_Some_l. by rewrite lookup_singleton_eq.
    + intros ->. apply lookup_union_Some_l. rewrite lookup_singleton_eq.
      do 2 f_equal. lia.
    + intros k Hk. rewrite lookup_union_r; [done|]. by apply lookup_singleton_ne.
Qed.

(** The style of C1 is the one [cell.getCellProps] receives: the base style
    of [getCellStyle] under the sub-row style, read after that call. *)
Lemma cellElementProps_of_unfold
    (tableHasSubRows anchor : bool) (s : TableCellProps) :
  cellElementProps_of tableHasSubRows anchor s =
  let r := getCellStyle (column (cell s))
             (truthy (isTableResizing (state (tableInstance s)))) s in
  getCellProps
    {[ "className" :=
         JStr (cx [CxVal (JStr "iui-cell");
                   CxVal (cellClassName (column (cell s)))]);
       "style" :=
         JObj (cellStyle r.1 (getSubRowStyle tableHasSubRows anchor (cell r.2))) ]}
    r.2.
Proof.
  unfold cellElementProps_of, bind, reads. cbv zeta.
  by destruct (getCellStyle _ _ s).
Qed.

(** *** The expansion anchor *)

Lemma findIndex_from_spec {A} (p : A → bool) (l : list A) (i : Z) :
  (findIndex_from p l i = -1 ∧ Forall (λ x, p x = false) l)
  ∨ (∃ k x, findIndex_from p l i = i + Z.of_nat k
            ∧ l !! k = Some x ∧ p x = true
            ∧ ∀ j y, (j < k)%nat → l !! j = Some y → p y = false).
Proof.
  revert i. induction l as [|a l IH]; intros i; simpl.
  - left. split; [done | constructor].
  - destruct (p a) eqn:Ha.
    + right. exists 0%nat, a. repeat split; [lia | done | intros; lia].
    + destruct (IH (i + 1)) as [[E F] | (k & x & E & Hk & Hx & Hlt)].
      * left. split; [done | by constructor].
      * right. exists (S k), x. repeat split; [lia | done | done |].
        intros [|j] y Hj Hy; simpl in Hy; [by injection Hy as <- |].
        apply (Hlt j); [lia | done].
Qed.

Lemma findIndex_none {A} (p : A → bool) (l : list A) :
  Forall (λ x, p x = false) l → findIndex p l = -1.
Proof.
  unfold findIndex. generalize 0. induction l as [|a l IH]; intros i H; simpl.
  - done.
  - inversion H as [|? ? Ha Hl]; subst. rewrite Ha. by apply IH.
Qed.

(** C2. For a cell at a zero-based position [cellIndex], whatever the order
    of the row's cells: the cell is the expansion anchor exactly when the
    cell at that position has a column other than the selection column and
    every cell before it has the selection column, that is, when the
    position is the index of the first cell outside the selection column. *)
Theorem hasSubRowExpander_first_non_selection (cellIndex : Z) (cell : Cell) :
  0 ≤ cellIndex →
  hasSubRowExpander cellIndex cell = true
  ↔ ∃ anchor,
      cells (row cell) !! Z.to_nat cellIndex = Some anchor
      ∧ id (column anchor) ≠ SELECTION_CELL_ID
      ∧ ∀ j c, (j < Z.to_nat cellIndex)%nat →
               cells (row cell) !! j = Some c →
               id (column c) = SELECTION_CELL_ID.
Proof.
  intros Hpos. unfold hasSubRowExpander, findIndex.
  set (p := λ c : Cell, negb (String.eqb (id (column c)) SELECTION_CELL_ID)).
  assert (Hp : ∀ c, p c = true ↔ id (column c) ≠ SELECTION_CELL_ID).
  { intros c. unfold p. rewrite negb_true_iff, String.eqb_neq. done. }
  assert (Hn : ∀ c, p c = false ↔ id (column c) = SELECTION_CELL_ID).
  { intros c. unfold p. rewrite negb_false_iff, String.eqb_eq. done. }
  rewrite Z.eqb_eq.
  destruct (findIndex_from_spec p (cells (row cell)) 0)
    as [[E F] | (k & x & E & Hk & Hx & Hlt)]; rewrite E.
  - split; [lia|]. intros (anchor & Ha & Hne & _). exfalso.
    rewrite Forall_lookup in F. apply Hp in Hne.
    specialize (F _ _ Ha). simpl in F. congruence.
  - split.
    + intros ->. replace (Z.to_nat (0 + Z.of_nat k)) with k by lia.
      exists x. repeat split; [done | by apply Hp |].
      intros j c Hj Hc. apply Hn. by apply (Hlt j).
    + intros (anchor & Ha & Hne & Hbefore).
      destruct (lt_eq_lt_dec k (Z.to_nat cellIndex)) as [[Hlt'|Heq]|Hgt].
      * exfalso. apply Hp in Hx. apply Hx. by apply (Hbefore k).
      * lia.
      * exfalso. apply Hp in Hne. rewrite (Hlt _ _ Hgt Ha) in Hne. done.
Qed.

(** C10. In a row whose cells all have the selection column, the search
    for the first other cell gives [-1]; no zero-based position equals it,
    so no cell of the row is the expansion anchor, [getSubRowStyle] gives no
    style, and the cell content starts with no expansion control. *)
Theorem all_selection_row_has_no_anchor
    (cellIndex : Z) (cell : Cell) (tableHasSubRows isDisabled : bool)
    (expanderCell : option nat) (cellProps : CellProps) :
  Forall (λ c, id (column c) = SELECTION_CELL_ID) (cells (row cell)) →
  0 ≤ cellIndex →
  let anchor := hasSubRowExpander cellIndex cell in
  findIndex (λ c, negb (String.eqb (id (column c)) SELECTION_CELL_ID))
            (cells (row cell)) = -1
  ∧ anchor = false
  ∧ getSubRowStyle tableHasSubRows anchor cell = None
  ∧ (∀ base, cellStyle base (getSubRowStyle tableHasSubRows anchor cell) = base)
  ∧ (∀ s, (expander_of tableHasSubRows anchor isDisabled expanderCell
             cellProps s).1 = RFalse)
  ∧ (∀ s, (cellContent_of tableHasSubRows anchor isDisabled expanderCell
             cellProps s).1 = RFragment [RFalse; (render "Cell" s).1]).
Proof.
  intros Hall Hpos. cbv zeta.
  assert (Hidx : findIndex
            (λ c, negb (String.eqb (id (column c)) SELECTION_CELL_ID))
            (cells (row cell)) = -1).
  { apply findIndex_none. eapply Forall_impl; [exact Hall|].
    intros c Hc. simpl. by rewrite negb_false_iff, String.eqb_eq. }
  assert (Hanchor : hasSubRowExpander cellIndex cell = false).
  { unfold hasSubRowExpander. rewrite Hidx. apply Z.eqb_neq. lia. }
  rewrite Hanchor. unfold getSubRowStyle, cellStyle, expander_of, cellContent_of.
  rewrite orb_true_r. simpl.
  repeat split; try done.
  - intros base. by rewrite (left_id_L ∅ (∪)).
  - intros s. unfold reads. simpl. by rewrite andb_false_r.
  - intros s. unfold bind, reads, ret. simpl. rewrite andb_false_r.
    by destruct (render "Cell" s).
Qed.

(** *** The renderer *)

(** [TableCell], step by step: the element attributes, the context bundle
    and the content are made in this order, each from the state the step
    before left; the column's renderer is read last. *)
Lemma TableCell_unfold (s : TableCellProps) :
  TableCell s =
  let anchor := hasSubRowExpander (cellIndex s) (cell s) in
  let r1 := cellElementProps_of (tableHasSubRows s) anchor s in
  let context := (cellProps_of r1.2).1 in
  let r2 := cellContent_of (tableHasSubRows s) anchor (isDisabled s)
              (expanderCell s) context r1.2 in
  match cellRenderer (column (cell r2.2)) with
  | Some f =>
      let r3 := callCellRenderer f
                  {| cellElementProps := r1.1;
                     cellProps := context;
                     children := r2.1 |} r2.2 in
      (RFragment [r3.1], r3.2)
  | None => (RFragment [RDefaultCell r1.1 context r2.1], r2.2)
  end.
Proof.
  unfold TableCell, bind, reads, ret. cbv zeta.
  destruct (cellElementProps_of _ _ s) as [attrs s1]. simpl.
  destruct (cellContent_of _ _ _ _ _ s1) as [content s2]. simpl.
  destruct (cellRenderer (column (cell s2))) as [f|]; [|done].
  by destruct (callCellRenderer f _ s2).
Qed.

(** C8. [TableCell] gathers three inputs: the element attributes that
    [cell.getCellProps] returns, the context bundle of cell, row, value,
    column and table instance, and the built content.  With a custom
    renderer on the column the output is the renderer's result on these
    three, unchanged, as the only child of the returned fragment; without
    one it is the default cell on the same three. *)
Theorem TableCell_renderer_dispatch (s : TableCellProps) :
  let anchor := hasSubRowExpander (cellIndex s) (cell s) in
  let r1 := cellElementProps_of (tableHasSubRows s) anchor s in
  let context := (cellProps_of r1.2).1 in
  let r2 := cellContent_of (tableHasSubRows s) anchor (isDisabled s)
              (expanderCell s) context r1.2 in
  let inputs := {| cellElementProps := r1.1;
                   cellProps := context;
                   children := r2.1 |} in
  (∀ f, cellRenderer (column (cell r2.2)) = Some f →
        (TableCell s).1 = RFragment [(callCellRenderer f inputs r2.2).1])
  ∧ (cellRenderer (column (cell r2.2)) = None →
        (TableCell s).1 =
        RFragment [RDefaultCell (cellElementProps inputs) (cellProps inputs)
                     (children inputs)]).
Proof.
  cbv zeta. rewrite TableCell_unfold. cbv zeta. split.
  - intros f Hf. by rewrite Hf.
  - intros Hf. by rewrite Hf.
Qed.

(** *** The frame *)

(** A computation that leaves a part of the state as it found it; the part
    is picked by [part]: the cell, its row, the table instance, or the whole
    state. *)
Definition keeps {A B} (part : TableCellProps → B) (m : M A) : Prop :=
  ∀ s, part (m s).2 = part s.

Lemma keeps_ret {A B} (part : TableCellProps → B) (a : A) :
  keeps part (ret a).
Proof. by intros s. Qed.

Lemma keeps_reads {A B} (part : TableCellProps → B) (f : TableCellProps → A) :
  keeps part (reads f).
Proof. by intros s. Qed.

Lemma keeps_bind {A A' B} (part : TableCellProps → B) (m : M A)
    (k : A → M A') :
  keeps part m → (∀ a, keeps part (k a)) → keeps part (bind m k).
Proof.
  intros Hm Hk s. unfold bind. specialize (Hm s).
  destruct (m s) as [a s']. simpl in Hm. rewrite <- Hm. apply Hk.
Qed.

(** The four collaborators leave [part] as they found it. *)
Definition collaborators_keep {B} (part : TableCellProps → B) : Prop :=
  (∀ c b, keeps part (getCellStyle c b))
  ∧ (∀ u, keeps part (getCellProps u))
  ∧ (∀ t, keeps part (render t))
  ∧ (∀ f a, keeps part (callCellRenderer f a)).

Lemma TableCell_keeps {B} (part : TableCellProps → B) :
  collaborators_keep part → keeps part TableCell.
Proof.
  intros (Hstyle & Hprops & Hrender & Hcall).
  unfold TableCell, cellElementProps_of, cellProps_of, cellContent_of,
    expander_of.
  repeat first
    [ apply keeps_reads | apply keeps_ret
    | apply Hstyle | apply Hprops | apply Hrender | apply Hcall
    | apply keeps_bind; [|intros ?]
    | match goal with
      | |- keeps _ (match ?x with _ => _ end) => destruct x
      end ].
Qed.

(** C9, amended. [TableCell] writes nothing of its own: every part of its
    inputs that the functions it calls ([getCellStyle], [cell.getCellProps],
    [cell.render] and the column's [cellRenderer]) leave unchanged is
    unchanged after rendering.  When these functions change nothing at all,
    the cell, its row and the table instance are after rendering what they
    were before, and rendering again gives what the first rendering gave. *)
Theorem TableCell_writes_nothing_itself (s : TableCellProps) :
  (∀ (B : Type) (part : TableCellProps → B),
     collaborators_keep part → part (TableCell s).2 = part s)
  ∧ (collaborators_keep (λ s', s') →
     (TableCell s).2 = s
     ∧ cell (TableCell s).2 = cell s
     ∧ row (cell (TableCell s).2) = row (cell s)
     ∧ tableInstance (TableCell s).2 = tableInstance s
     ∧ TableCell (TableCell s).2 = TableCell s).
Proof.
  split.
  - intros B part H. by apply TableCell_keeps.
  - intros H. pose proof (TableCell_keeps (λ s', s') H s) as E.
    simpl in E. rewrite E. repeat split; done.
Qed.

End Render.

(** *** A table with a selection column, run end to end *)

Definition selection_id : string := "iui-table-checkbox-selector".

Definition selection_column : Column :=
  {| id := selection_id; cellClassName := JStr "iui-slot";
     cellRenderer := None; column_other := ∅ |}.

Definition name_column : Column :=
  {| id := "name"; cellClassName := JUndefined;
     cellRenderer := None; column_other := ∅ |}.

Definition age_column : Column :=
  {| id := "age"; cellClassName := JStr "numeric";
     cellRenderer := Some 7%nat; column_other := ∅ |}.

(** A cell as its row lists it; the list stops the unfolding of the cyclic
    cell-row graph there. *)
Definition listed (col : Column) (v : JSValue) : Cell :=
  mkCell col v (mkRow 0 false []).

Definition person_row (canExpand : bool) : Row :=
  mkRow 2 canExpand
    [listed selection_column (JBool false);
     listed name_column (JStr "Ann");
     listed age_column (JNum 41)].

(** A row made of selection cells only. *)
Definition selection_row : Row :=
  mkRow 1 true
    [listed selection_column (JBool false);
     listed selection_column (JBool true)].

Definition idle_table : TableInstance :=
  {| state := {| isTableResizing := JUndefined; state_other := ∅ |};
     instance_other := ∅ |}.

Definition cell_props (col : Column) (v : JSValue) (r : Row) (i : Z)
  : TableCellProps :=
  {| cell := mkCell col v r; cellIndex := i; isDisabled := false;
     tableHasSubRows := true; tableInstance := idle_table;
     expanderCell := None |}.

(** Collaborators that only read: a fixed base style, attributes that are
    the user props, the cell's value as its rendering, and a renderer that
    hands back the content it was given, labelled. *)
Definition plain_getCellStyle (c : Column) (resizing : bool)
  : M (gmap string JSValue) :=
  ret {[ "width" := JNum 100 ]}.

Definition plain_getCellProps (userProps : gmap string JSValue)
  : M (gmap string JSValue) :=
  ret userProps.

Definition plain_render (type : string) : M ReactNode :=
  reads (λ s, RNode (value (cell s))).

Definition plain_callCellRenderer (f : nat) (p : CellRendererProps)
  : M ReactNode :=
  ret (RFragment [RNode (JStr "custom"); children p]).

Definition run (props : TableCellProps) : ReactNode * TableCellProps :=
  TableCell selection_id plain_getCellStyle plain_getCellProps plain_render
    plain_callCellRenderer props.

(** The name cell of a row at depth 2 that cannot expand, cell 1 of its
    row: the anchor, padded by [16 + 3 * 35], with no expansion control. *)
Example run_name_cell_leaf :
  let props := cell_props name_column (JStr "Ann") (person_row false) 1 in
  (run props).1 =
  RFragment
    [RDefaultCell
       {[ "className" := JStr "iui-cell";
          "style" := JObj {[ "width" := JNum 100; "paddingLeft" := JNum 121 ]} ]}
       {| cp_tableInstance := idle_table; cp_cell := cell props;
          cp_row := person_row false; cp_value := JStr "Ann";
          cp_column := name_column |}
       (RFragment [RFalse; RNode (JStr "Ann")])].
Proof. vm_compute. reflexivity. Qed.

(** The same cell when the row can expand: padded by [16 + 2 * 35], with
    the expansion control ahead of the value. *)
Example run_name_cell_expandable :
  let props := cell_props name_column (JStr "Ann") (person_row true) 1 in
  let context :=
    {| cp_tableInstance := idle_table; cp_cell := cell props;
       cp_row := person_row true; cp_value := JStr "Ann";
       cp_column := name_column |} in
  (run props).1 =
  RFragment
    [RDefaultCell
       {[ "className" := JStr "iui-cell";
          "style" := JObj {[ "width" := JNum 100; "paddingLeft" := JNum 86 ]} ]}
       context
       (RFragment [RSubRowExpander (cell props) false context None;
                   RNode (JStr "Ann")])].
Proof. vm_compute. reflexivity. Qed.

(** The age cell, cell 2 of the row, with a custom renderer: not the
    anchor, base style only, and the renderer's result as the output. *)
Example run_age_cell_custom :
  let props := cell_props age_column (JNum 41) (person_row true) 2 in
  (run props).1 =
  RFragment
    [RFragment [RNode (JStr "custom");
                RFragment [RFalse; RNode (JNum 41)]]].
Proof. vm_compute. reflexivity. Qed.

(** C2 at the name cell, position 1 of a row that starts with the
    selection cell. *)
Lemma hasSubRowExpander_first_non_selection_witness :
  hasSubRowExpander selection_id 1
    (mkCell name_column (JStr "Ann") (person_row false)) = true
  ↔ ∃ anchor,
      cells (person_row false) !! Z.to_nat 1 = Some anchor
      ∧ id (column anchor) ≠ selection_id
      ∧ ∀ j c, (j < Z.to_nat 1)%nat →
               cells (person_row false) !! j = Some c →
               id (column c) = selection_id.
Proof.
  apply (hasSubRowExpander_first_non_selection selection_id 1
           (mkCell name_column (JStr "Ann") (person_row false))).
  lia.
Defined.

(** C10 at the first cell of the row of selection cells. *)
Lemma all_selection_row_has_no_anchor_witness :
  let first := mkCell selection_column (JBool false) selection_row in
  let context :=
    {| cp_tableInstance := idle_table; cp_cell := first;
       cp_row := selection_row; cp_value := JBool false;
       cp_column := selection_column |} in
  Forall (λ c, id (column c) = selection_id) (cells selection_row)
  ∧ hasSubRowExpander selection_id 0 first = false
  ∧ getSubRowStyle true (hasSubRowExpander selection_id 0 first) first = None
  ∧ (cellContent_of plain_render true (hasSubRowExpander selection_id 0 first)
       false None context (cell_props selection_column (JBool false)
                             selection_row 0)).1
    = RFragment [RFalse; RNode (JBool false)].
Proof.
  cbv zeta.
  assert (H : Forall (λ c, id (column c) = selection_id) (cells selection_row)).
  { repeat constructor. }
  split; [exact H|].
  destruct (all_selection_row_has_no_anchor selection_id plain_render 0
              (mkCell selection_column (JBool false) selection_row)
              true false None
              {| cp_tableInstance := idle_table;
                 cp_cell := mkCell selection_column (JBool false) selection_row;
                 cp_row := selection_row; cp_value := JBool false;
                 cp_column := selection_column |} H)
    as (_ & E2 & E3 & _ & _ & E6); [lia|].
  split; [exact E2|]. split; [exact E3|]. apply E6.
Defined.

(** A renderer that writes: it switches the resize flag of the table state,
    which it reaches through the context bundle it is given. *)
Definition resizing_table : TableInstance :=
  {| state := {| isTableResizing := JBool true; state_other := ∅ |};
     instance_other := ∅ |}.

Definition writing_callCellRenderer (f : nat) (p : CellRendererProps)
  : M ReactNode :=
  λ s, (RNode (JStr "custom"),
        {| cell := cell s; cellIndex := cellIndex s;
           isDisabled := isDisabled s;
           tableHasSubRows := tableHasSubRows s;
           tableInstance := resizing_table;
           expanderCell := expanderCell s |}).

Definition run_writing (props : TableCellProps) : ReactNode * TableCellProps :=
  TableCell selection_id plain_getCellStyle plain_getCellProps plain_render
    writing_callCellRenderer props.

(** C9, as stated, fails: [TableCell] calls the column's [cellRenderer], and
    what that function writes is written during the invocation.  For the
    age cell, whose column has a renderer, the table instance after
    rendering is not the one before. *)
Lemma writing_renderer_changes_table :
  let props := cell_props age_column (JNum 41) (person_row true) 2 in
  tableInstance props = idle_table
  ∧ tableInstance (run_writing props).2 = resizing_table
  ∧ tableInstance (run_writing props).2 ≠ tableInstance props
  ∧ (run_writing props).2 ≠ props.
Proof.
  cbv zeta. split; [reflexivity|]. split; [reflexivity|].
  split; [discriminate|].
  intros E. apply (f_equal tableInstance) in E. discriminate E.
Qed.

(** The amended C9 with the same writing renderer: the cell, which no
    collaborator touches, is unchanged; and with the collaborators that
    only read, the whole state is. *)
Lemma TableCell_writes_nothing_itself_witness :
  let props := cell_props age_column (JNum 41) (person_row true) 2 in
  cell (run_writing props).2 = cell props
  ∧ (run props).2 = props
  ∧ run (run props).2 = run props.
Proof.
  cbv zeta. split.
  - apply (proj1 (TableCell_writes_nothing_itself selection_id
                    plain_getCellStyle plain_getCellProps plain_render
                    writing_callCellRenderer
                    (cell_props age_column (JNum 41) (person_row true) 2))
                 Cell cell).
    repeat split.
  - destruct (proj2 (TableCell_writes_nothing_itself selection_id
                       plain_getCellStyle plain_getCellProps plain_render
                       plain_callCellRenderer
                       (cell_props age_column (JNum 41) (person_row true) 2)))
      as (H1 & _ & _ & _ & H2).
    + repeat split.
    + split; [exact H1 | exact H2].
Defined.

End TableCell.

(** ** More on [HeaderButton]: what reaches the primitive *)

Module HeaderButtonFacts.

Import HeaderButton.

(** The keys of the object literal in [buttonProps]. *)
Definition computed_keys : list string :=
  ["startIcon"; "styleType"; "className"; "aria-current"; "children"; "ref"].

Lemma get_insert_ne (m : gmap string JSValue) (k k' : string) (v : JSValue) :
  k ≠ k' → get (<[k := v]> m) k' = get m k'.
Proof. intros H. unfold get. by rewrite lookup_insert_ne. Qed.

Lemma get_delete_ne (m : gmap string JSValue) (k k' : string) :
  k ≠ k' → get (delete k m) k' = get m k'.
Proof. intros H. unfold get. by rewrite lookup_delete_ne. Qed.

Lemma rest_insert_destructured (props : gmap string JSValue) (k : string)
    (v : JSValue) :
  k ∈ destructured → rest (<[k := v]> props) = rest props.
Proof.
  intros Hk. apply map_eq. intros k'. rewrite !rest_lookup.
  destruct (decide (k' ∈ destructured)) as [|Hn]; [done|].
  apply lookup_insert_ne. by intros ->.
Qed.

(** Pass-through is exact: a prop that [buttonProps] neither destructures
    nor computes (such as [endIcon], [onClick], [title]) reaches the
    primitive with the caller's value, and is absent when the caller left
    it out. *)
Theorem buttonProps_other (props : gmap string JSValue) (ref : JSValue)
    (k : string) :
  k ∉ destructured → k ∉ computed_keys →
  buttonProps props ref !! k = props !! k.
Proof.
  intros Hd Hc.
  assert (k ≠ "menuItems") as Hm by (intros ->; apply Hd; key_in).
  assert (k ≠ "startIcon" ∧ k ≠ "styleType" ∧ k ≠ "className"
          ∧ k ≠ "aria-current" ∧ k ≠ "children" ∧ k ≠ "ref")
    as (H1 & H2 & H3 & H4 & H5 & H6).
  { repeat split; intros ->; apply Hc; key_in. }
  unfold buttonProps. cbv zeta.
  destruct (props !! k) as [v|] eqn:E.
  - apply lookup_union_Some_l. by rewrite rest_lookup_other.
  - rewrite lookup_union_r by (by rewrite rest_lookup_other).
    rewrite lookup_union_r.
    + rewrite !lookup_insert_ne by done. by apply lookup_singleton_ne.
    + unfold spread_when. destruct (truthy _); [|apply lookup_empty].
      by apply lookup_singleton_ne.
Qed.

(** A descriptor with a trailing icon and a title. *)
Definition titled_props : gmap string JSValue :=
  {[ "name" := JStr "Project B";
     "endIcon" := JElem (HostTag "svg") ∅;
     "title" := JStr "Open project" ]}.

Lemma buttonProps_other_witness :
  buttonProps titled_props JNull !! "endIcon" = titled_props !! "endIcon".
Proof.
  apply (buttonProps_other titled_props JNull "endIcon"); key_out.
Defined.

(** Reads [buttonProps] at a key of the literal that the caller did not
    pass, or at a destructured key. *)
Ltac literal_key :=
  unfold buttonProps; cbv zeta;
  rewrite lookup_union_r
    by first [ apply rest_lookup_destructured; key_in
             | rewrite rest_lookup_other by key_out; assumption ];
  unfold spread_when; destruct (truthy (get _ "menuItems"));
  [ rewrite lookup_union_r by (by apply lookup_singleton_ne)
  | rewrite lookup_union_r by apply lookup_empty ];
  reflexivity.

(** The label, the description and the active flag are consumed by
    [HeaderButton]: none of the three keys reaches the primitive, whatever
    the caller passed. *)
Theorem consumed_keys_not_forwarded (props : gmap string JSValue) (ref : JSValue) :
  buttonProps props ref !! "name" = None
  ∧ buttonProps props ref !! "description" = None
  ∧ buttonProps props ref !! "isActive" = None.
Proof. repeat split; literal_key. Qed.

(** The six keys of the literal are always present in the assembled props;
    where the caller passed none of its own, the style type is
    [borderless], the ref is the forwarded ref, and [aria-current] is
    [location] for a truthy active flag and [undefined] otherwise. *)
Theorem computed_defaults (props : gmap string JSValue) (ref : JSValue) :
  (∀ k, k ∈ computed_keys → is_Some (buttonProps props ref !! k))
  ∧ (props !! "styleType" = None →
       buttonProps props ref !! "styleType" = Some (JStr "borderless"))
  ∧ (props !! "ref" = None → buttonProps props ref !! "ref" = Some ref)
  ∧ (props !! "aria-current" = None →
       buttonProps props ref !! "aria-current" =
       Some (if truthy (isActive_or_default props)
             then JStr "location" else JUndefined)).
Proof.
  split; [|split; [|split]; intros H; literal_key].
  intros k Hk. unfold computed_keys in Hk.
  assert (Hu : ∀ m1 m2 m3 : gmap string JSValue,
            is_Some (m3 !! k) → is_Some ((m1 ∪ (m2 ∪ m3)) !! k)).
  { intros m1 m2 m3 [v Hv]. rewrite !lookup_union, Hv.
    destruct (m1 !! k), (m2 !! k); by eexists. }
  unfold buttonProps. cbv zeta. apply Hu.
  repeat (apply elem_of_cons in Hk as [-> | Hk]; [by eexists|]).
  by apply elem_of_nil in Hk.
Qed.

(** *** The class of the button *)

Lemma buttonProps_className (props : gmap string JSValue) (ref : JSValue) :
  buttonProps props ref !! "className" =
  Some (JStr (cx [CxDict [("iui-header-button",
                           JBool (negb (isSplitButton props)));
                          ("iui-header-split-button",
                           JBool (isSplitButton props));
                          ("iui-active", isActive_or_default props)];
                  CxVal (get props "className")])).
Proof. literal_key. Qed.

Lemma cx_header_classes (split : bool) (active className : JSValue) :
  cx [CxDict [("iui-header-button", JBool (negb split));
              ("iui-header-split-button", JBool split);
              ("iui-active", active)];
      CxVal className]
  = String.concat " "
      ((if split then "iui-header-split-button" else "iui-header-button")
       :: (if truthy active then ["iui-active"] else [])
       ++ cx_value className)%list.
Proof.
  unfold cx, cx_classes, cx_arg, cx_dict. simpl fmap. simpl concat.
  rewrite app_nil_r. do 2 f_equal.
  rewrite !filter_cons, filter_nil. simpl.
  destruct split, (truthy active); reflexivity.
Qed.

(** The class of the button is, in this order: one base class, which is
    [iui-header-split-button] exactly when the split-action primitive is
    rendered and [iui-header-button] otherwise; [iui-active] when the
    active flag is truthy; the classes of the caller's [className]. *)
Theorem className_layout (props : gmap string JSValue) (ref : JSValue) :
  let split := isSplitButton props in
  buttonProps props ref !! "className" =
  Some (JStr (String.concat " "
    ((if split then "iui-header-split-button" else "iui-header-button")
     :: (if truthy (isActive_or_default props) then ["iui-active"] else [])
     ++ cx_value (get props "className"))%list))
  ∧ (split = true ↔ component (HeaderButton props ref) = Some SplitButtonC).
Proof.
  cbv zeta. split.
  - by rewrite buttonProps_className, cx_header_classes.
  - rewrite HeaderButton_dispatch. simpl.
    destruct (isSplitButton props), (isDropdownButton props);
      split; intros; done.
Qed.

(** *** The active flag *)

Lemma isActive_or_default_insert (props : gmap string JSValue) (b : bool) :
  isActive_or_default (<["isActive" := JBool b]> props) = JBool b.
Proof. unfold isActive_or_default, get. by rewrite lookup_insert_eq. Qed.

(** The active flag counts through its truthiness alone: any value renders
    like the boolean it converts to, and a flag left out (or [undefined])
    renders like [false]. *)
Theorem isActive_by_truthiness (props : gmap string JSValue) (ref : JSValue) :
  HeaderButton props ref =
  HeaderButton
    (<["isActive" := JBool (truthy (isActive_or_default props))]> props) ref.
Proof.
  set (b := truthy (isActive_or_default props)).
  assert (Hsplit :
    isSplitButton (<["isActive" := JBool b]> props) = isSplitButton props).
  { unfold isSplitButton. by rewrite !get_insert_ne. }
  assert (E : buttonProps (<["isActive" := JBool b]> props) ref
              = buttonProps props ref).
  { unfold buttonProps. cbv zeta.
    rewrite rest_insert_destructured by key_in.
    rewrite !get_insert_ne by done. rewrite Hsplit.
    rewrite isActive_or_default_insert, !cx_header_classes.
    unfold js_cond. simpl truthy. fold b. reflexivity. }
  unfold HeaderButton. cbv zeta. by rewrite E.
Qed.

(** *** The children *)

(** Unless the caller passes children of its own, the children are a
    fragment of two: a [div] around the label, always, and then a [div] of
    class [iui-description] around the description when the description is
    truthy; a falsy description ([undefined], [null], [false], the empty
    string, [0]) stands there itself, unwrapped. *)
Theorem children_layout (props : gmap string JSValue) (ref : JSValue) :
  props !! "children" = None →
  ∃ second,
    buttonProps props ref !! "children" =
    Some (JElem FragmentT
            {[ "children" :=
                 JArr [JElem (HostTag "div")
                         {[ "children" := get props "name" ]};
                       second] ]})
    ∧ (truthy (get props "description") = true →
         second = JElem (HostTag "div")
                    {[ "className" := JStr "iui-description";
                       "children" := get props "description" ]})
    ∧ (truthy (get props "description") = false →
         second = get props "description").
Proof.
  intros H. eexists. split; [literal_key|].
  unfold js_and. destruct (truthy (get props "description")); split; done.
Qed.

(** A label with the description [0]. *)
Definition zero_description_props : gmap string JSValue :=
  {[ "name" := JStr "Project A"; "description" := JNum 0 ]}.

Lemma children_layout_witness :
  ∃ second,
    buttonProps zero_description_props JNull !! "children" =
    Some (JElem FragmentT
            {[ "children" :=
                 JArr [JElem (HostTag "div") {[ "children" := JStr "Project A" ]};
                       second] ]})
    ∧ second = JNum 0.
Proof.
  destruct (children_layout zero_description_props JNull eq_refl)
    as (second & E & _ & F).
  exists second. split; [exact E | exact (F eq_refl)].
Defined.

(** *** The primitive and its props *)

(** Each primitive gets the props its kind needs: the split-action
    primitive is rendered exactly when the assembled props hold truthy menu
    items and a truthy click handler, the dropdown-menu primitive exactly
    when they hold truthy menu items and no truthy click handler, and the
    plain button exactly when they hold no [menuItems] key at all. *)
Theorem primitive_matches_props (props : gmap string JSValue) (ref : JSValue) :
  let out := HeaderButton props ref in
  (component out = Some SplitButtonC
   ↔ truthy (get (props_of out) "menuItems") = true
     ∧ truthy (get (props_of out) "onClick") = true)
  ∧ (component out = Some DropdownButtonC
     ↔ truthy (get (props_of out) "menuItems") = true
       ∧ truthy (get (props_of out) "onClick") = false)
  ∧ (component out = Some ButtonC ↔ props_of out !! "menuItems" = None).
Proof.
  cbv zeta. rewrite HeaderButton_dispatch. simpl.
  unfold get at 1 2 3 4. rewrite buttonProps_menuItems, buttonProps_onClick.
  fold (get props "onClick").
  unfold isSplitButton, isDropdownButton.
  destruct (truthy (get props "menuItems")) eqn:Em; simpl; [rewrite Em|];
    destruct (truthy (get props "onClick")) eqn:Ec; simpl;
    repeat split; intros; try done;
    repeat match goal with H : _ ∧ _ |- _ => destruct H end; done.
Qed.

(** The variant depends on [menuItems] and [onClick] alone: setting any
    other prop never changes which primitive is rendered. *)
Theorem variant_ignores_other_props
    (props : gmap string JSValue) (ref : JSValue) (k : string) (v : JSValue) :
  k ≠ "menuItems" → k ≠ "onClick" →
  component (HeaderButton (<[k := v]> props) ref)
  = component (HeaderButton props ref).
Proof.
  intros Hm Hc. rewrite !HeaderButton_dispatch. simpl.
  unfold isSplitButton, isDropdownButton. by rewrite !get_insert_ne.
Qed.

Lemma variant_ignores_other_props_witness :
  component (HeaderButton (<["isActive" := JBool true]> empty_menu_props) JNull)
  = component (HeaderButton empty_menu_props JNull).
Proof.
  apply (variant_ignores_other_props empty_menu_props JNull "isActive"
           (JBool true)); discriminate.
Defined.

End HeaderButtonFacts.

(** ** More on [TableCell]: anchor, indentation and call order *)

Module TableCellFacts.

Import TableCell.

Section Facts.

Variable SELECTION_CELL_ID : string.
Variable getCellStyle : Column → bool → M (gmap string JSValue).
Variable getCellProps : gmap string JSValue → M (gmap string JSValue).
Variable render : string → M ReactNode.
Variable callCellRenderer : nat → CellRendererProps → M ReactNode.

(** The test that [findIndex] runs on a cell of the row. *)
Definition outside_selection (c : Cell) : bool :=
  negb (String.eqb (id (column c)) SELECTION_CELL_ID).

Lemma outside_selection_true (c : Cell) :
  outside_selection c = true ↔ id (column c) ≠ SELECTION_CELL_ID.
Proof. unfold outside_selection. by rewrite negb_true_iff, String.eqb_neq. Qed.

Lemma outside_selection_false (c : Cell) :
  outside_selection c = false ↔ id (column c) = SELECTION_CELL_ID.
Proof. unfold outside_selection. by rewrite negb_false_iff, String.eqb_eq. Qed.

Lemma findIndex_from_app_prefix {A} (p : A → bool) (pre : list A) (x : A)
    (post : list A) (i : Z) :
  Forall (λ y, p y = false) pre → p x = true →
  findIndex_from p (pre ++ x :: post) i = i + Z.of_nat (length pre).
Proof.
  intros Hpre Hx. revert i.
  induction Hpre as [|a pre Ha Hpre IH]; intros i; simpl.
  - rewrite Hx. lia.
  - rewrite Ha, IH. lia.
Qed.

(** The range of the search: [-1], or the index of a cell of the row. *)
Lemma findIndex_range {A} (p : A → bool) (l : list A) :
  (findIndex p l = -1 ∧ Forall (λ x, p x = false) l)
  ∨ (0 ≤ findIndex p l < Z.of_nat (length l)
     ∧ ∃ x, l !! Z.to_nat (findIndex p l) = Some x ∧ p x = true).
Proof.
  unfold findIndex.
  destruct (findIndex_from_spec p l 0) as [[E F]|(k & x & E & Hk & Hx & _)].
  - by left.
  - right. rewrite E. apply lookup_lt_Some in Hk as Hlt. split; [lia|].
    exists x. replace (Z.to_nat (0 + Z.of_nat k)) with k by lia. done.
Qed.

(** At most one position of a row hosts the expansion control, and a
    zero-based position does exactly when the row has a cell outside the
    selection column; the position then is inside the row.  The only other
    index that passes the test is [-1], and only on a row without such a
    cell. *)
Theorem anchor_unique_and_in_range (cell : Cell) :
  (∀ i j, hasSubRowExpander SELECTION_CELL_ID i cell = true →
          hasSubRowExpander SELECTION_CELL_ID j cell = true → i = j)
  ∧ (∀ i, hasSubRowExpander SELECTION_CELL_ID i cell = true →
          -1 ≤ i < Z.of_nat (length (cells (row cell))))
  ∧ (hasSubRowExpander SELECTION_CELL_ID (-1) cell = true
     ↔ Forall (λ c, id (column c) = SELECTION_CELL_ID) (cells (row cell)))
  ∧ ((∃ i, 0 ≤ i ∧ hasSubRowExpander SELECTION_CELL_ID i cell = true)
     ↔ ∃ c, c ∈ cells (row cell) ∧ id (column c) ≠ SELECTION_CELL_ID).
Proof.
  unfold hasSubRowExpander.
  change (λ c : Cell, negb (String.eqb (id (column c)) SELECTION_CELL_ID))
    with outside_selection.
  set (n := findIndex outside_selection (cells (row cell))).
  assert (Heq : ∀ i, (i =? n) = true ↔ i = n) by (intros; apply Z.eqb_eq).
  setoid_rewrite Heq.
  destruct (findIndex_range outside_selection (cells (row cell)))
    as [[E F]|[R (x & Hx & Px)]]; fold n in E || fold n in R, Hx.
  - split; [intros; lia|]. split; [intros; lia|]. split; [|split].
    + split; [|done]. intros _. eapply Forall_impl; [exact F|].
      intros c. apply outside_selection_false.
    + intros (i & Hi & ->). lia.
    + intros (c & Hc & Hne). exfalso.
      rewrite Forall_forall in F. apply outside_selection_true in Hne.
      specialize (F c Hc). simpl in F. congruence.
  - split; [intros; lia|]. split; [intros; lia|]. split; [|split].
    + split; [intros; lia|]. intros F. exfalso. rewrite Forall_lookup in F.
      specialize (F _ _ Hx). apply outside_selection_false in F. congruence.
    + intros _. exists x. split.
      * by eapply list_elem_of_lookup_2.
      * by apply outside_selection_true.
    + intros _. exists n. split; [lia | done].
Qed.

(** The anchor is the cell right after the leading selection cells: in a
    row that starts with [pre], all in the selection column, followed by a
    cell outside it, the anchor is position [length pre]: the first cell of
    a table without selection column, the second of a table with one. *)
Theorem anchor_follows_selection_prefix
    (cell first : Cell) (pre post : list Cell) (i : Z) :
  cells (row cell) = (pre ++ first :: post)%list →
  Forall (λ c, id (column c) = SELECTION_CELL_ID) pre →
  id (column first) ≠ SELECTION_CELL_ID →
  hasSubRowExpander SELECTION_CELL_ID i cell = true
  ↔ i = Z.of_nat (length pre).
Proof.
  intros Hcells Hpre Hfirst. unfold hasSubRowExpander, findIndex.
  rewrite Hcells, findIndex_from_app_prefix.
  - rewrite Z.eqb_eq. lia.
  - eapply Forall_impl; [exact Hpre|]. intros c Hc. simpl.
    by rewrite negb_false_iff, String.eqb_eq.
  - by rewrite negb_true_iff, String.eqb_neq.
Qed.

(** *** Indentation by depth *)

(** The left padding a sub-row style sets, if any. *)
Definition paddingLeft_of (style : option (gmap string JSValue)) : option Z :=
  match style with
  | Some o => match o !! "paddingLeft" with
              | Some (JNum n) => Some n
              | _ => None
              end
  | None => None
  end.

Lemma paddingLeft_of_anchor (c : Cell) :
  paddingLeft_of (getSubRowStyle true true c) =
  Some (16 + (depth (row c) + (if canExpand (row c) then 0 else 1)) * 35).
Proof. unfold getSubRowStyle. simpl. by rewrite lookup_singleton_eq. Qed.

(** Anchor cells of a table with sub-rows are indented in steps of 35, the
    width of the expansion control with its margin, from the initial cell
    padding 16: a row one level deeper is padded 35 more, a row that cannot
    expand is padded 35 more than one that can at the same depth, so it
    gets the very style of an expandable row one level deeper; and at a
    depth of 0 or more the padding is at least 16. *)
Theorem indentation_steps (c1 c2 : Cell) :
  (∃ p, paddingLeft_of (getSubRowStyle true true c1) = Some p
        ∧ (0 ≤ depth (row c1) → 16 ≤ p))
  ∧ (canExpand (row c1) = canExpand (row c2) →
     depth (row c2) = depth (row c1) + 1 →
     paddingLeft_of (getSubRowStyle true true c2)
     = (λ p, p + 35) <$> paddingLeft_of (getSubRowStyle true true c1))
  ∧ (canExpand (row c1) = true → canExpand (row c2) = false →
     depth (row c2) = depth (row c1) →
     paddingLeft_of (getSubRowStyle true true c2)
     = (λ p, p + 35) <$> paddingLeft_of (getSubRowStyle true true c1))
  ∧ (canExpand (row c1) = true → canExpand (row c2) = false →
     depth (row c1) = depth (row c2) + 1 →
     getSubRowStyle true true c1 = getSubRowStyle true true c2).
Proof.
  rewrite !paddingLeft_of_anchor. split; [|split; [|split]].
  - eexists. split; [done|]. intros. destruct (canExpand (row c1)); lia.
  - intros -> ->. simpl. f_equal. lia.
  - intros -> -> ->. simpl. f_equal. lia.
  - intros H1 H2 H3. unfold getSubRowStyle. simpl.
    rewrite H1, H2, H3. do 3 f_equal. lia.
Qed.

(** *** The expansion control and the padding *)

(** The expansion control is rendered exactly when the table has sub-rows,
    the cell is the anchor and the row can expand; it then carries the
    cell, the disabled flag, the context bundle and the caller's expander
    override, and the cell is padded by [16 + depth * 35].  A cell whose
    style gets no padding never shows the control. *)
Theorem expander_goes_with_padding
    (tableHasSubRows anchor isDisabled : bool) (expanderCell : option nat)
    (context : CellProps) (s : TableCellProps) :
  let e := (expander_of tableHasSubRows anchor isDisabled expanderCell
              context s).1 in
  let style := getSubRowStyle tableHasSubRows anchor (cell s) in
  (e = RSubRowExpander (cell s) isDisabled context expanderCell
   ∧ tableHasSubRows = true ∧ anchor = true ∧ canExpand (row (cell s)) = true
   ∧ style = Some {[ "paddingLeft" := JNum (16 + depth (row (cell s)) * 35) ]}
   ∨ e = RFalse
     ∧ (tableHasSubRows = false ∨ anchor = false
        ∨ canExpand (row (cell s)) = false))
  ∧ (style = None → e = RFalse)
  ∧ (expander_of tableHasSubRows anchor isDisabled expanderCell context s).2 = s.
Proof.
  cbv zeta. unfold expander_of, reads, getSubRowStyle. simpl.
  destruct tableHasSubRows, anchor, (canExpand (row (cell s))); simpl;
    (split; [|split; done]).
  1: { left. repeat split. do 3 f_equal. lia. }
  all: right; split; [done|]; auto.
Qed.

(** *** What the collaborators are called with, and in which order *)

Lemma cx_cell_class (v : JSValue) :
  cx [CxVal (JStr "iui-cell"); CxVal v]
  = String.concat " " ("iui-cell" :: cx_value v).
Proof. unfold cx, cx_classes. simpl. by rewrite app_nil_r. Qed.

(** [cell.getCellProps] is called on the state that [getCellStyle] left,
    with two props: the class, which is [iui-cell] followed by the classes
    of the column's [cellClassName], and the style, which is the base style
    of [getCellStyle] at every key but [paddingLeft]. *)
Theorem getCellProps_receives
    (tableHasSubRows anchor : bool) (s : TableCellProps) :
  let r0 := getCellStyle (column (cell s))
              (truthy (isTableResizing (state (tableInstance s)))) s in
  ∃ style,
    cellElementProps_of getCellStyle getCellProps tableHasSubRows anchor s
    = getCellProps
        {[ "className" :=
             JStr (String.concat " "
                     ("iui-cell" :: cx_value (cellClassName (column (cell s)))));
           "style" := JObj style ]}
        r0.2
    ∧ (∀ k, k ≠ "paddingLeft" → style !! k = r0.1 !! k)
    ∧ (tableHasSubRows = false ∨ anchor = false → style = r0.1).
Proof.
  cbv zeta. rewrite cellElementProps_of_unfold. cbv zeta.
  rewrite cx_cell_class. eexists. split; [reflexivity|].
  unfold cellStyle, getSubRowStyle. split.
  - intros k Hk. destruct (negb tableHasSubRows || negb anchor); simpl.
    + by rewrite (left_id_L ∅ (∪)).
    + rewrite lookup_union_r; [done|]. by apply lookup_singleton_ne.
  - intros [-> | ->]; simpl; rewrite ?orb_true_r; simpl;
      by rewrite (left_id_L ∅ (∪)).
Qed.

(** [TableCell] calls its collaborators once each and in this order, each
    on the state the one before left: [getCellStyle] on the column and the
    resize flag, [cell.getCellProps], [cell.render] with ['Cell'], and last
    the column's renderer, if there is one, on the attributes
    [getCellProps] returned and a content that ends with what [render]
    returned.  The state after rendering is the state the last call left. *)
Theorem TableCell_call_order (s : TableCellProps) :
  let r0 := getCellStyle (column (cell s))
              (truthy (isTableResizing (state (tableInstance s)))) s in
  ∃ userProps expander,
    let r1 := getCellProps userProps r0.2 in
    let r2 := render "Cell" r1.2 in
    let inputs := {| cellElementProps := r1.1;
                     cellProps := (cellProps_of r1.2).1;
                     children := RFragment [expander; r2.1] |} in
    match cellRenderer (column (cell r2.2)) with
    | Some f =>
        TableCell SELECTION_CELL_ID getCellStyle getCellProps render
          callCellRenderer s
        = (RFragment [(callCellRenderer f inputs r2.2).1],
           (callCellRenderer f inputs r2.2).2)
    | None =>
        TableCell SELECTION_CELL_ID getCellStyle getCellProps render
          callCellRenderer s
        = (RFragment [RDefaultCell r1.1 (cellProps_of r1.2).1
                        (RFragment [expander; r2.1])],
           r2.2)
    end.
Proof.
  cbv zeta.
  set (anchor := hasSubRowExpander SELECTION_CELL_ID (cellIndex s) (cell s)).
  set (r0 := getCellStyle (column (cell s))
               (truthy (isTableResizing (state (tableInstance s)))) s).
  set (userProps := ({[
    "className" := JStr (cx [CxVal (JStr "iui-cell");
                             CxVal (cellClassName (column (cell s)))]);
    "style" := JObj (cellStyle r0.1
                       (getSubRowStyle (tableHasSubRows s) anchor (cell r0.2)))
    ]} : gmap string JSValue)).
  exists userProps.
  set (r1 := getCellProps userProps r0.2).
  exists (expander_of (tableHasSubRows s) anchor (isDisabled s)
            (expanderCell s) (cellProps_of r1.2).1 r1.2).1.
  rewrite TableCell_unfold. cbv zeta.
  rewrite cellElementProps_of_unfold. cbv zeta.
  fold anchor r0 userProps r1.
  unfold cellContent_of, bind, ret.
  assert (Hs : (expander_of (tableHasSubRows s) anchor (isDisabled s)
                  (expanderCell s) (cellProps_of r1.2).1 r1.2).2 = r1.2)
    by done.
  destruct (expander_of _ _ _ _ _ r1.2) as [e s2]. simpl in Hs. subst s2.
  simpl. destruct (render "Cell" r1.2) as [rendered s3]. simpl.
  destruct (cellRenderer (column (cell s3))); reflexivity.
Qed.

End Facts.


(** The prefix theorem at the name cell of the row [selection; name; age]. *)
Lemma anchor_follows_selection_prefix_witness :
  hasSubRowExpander selection_id 1
    (mkCell name_column (JStr "Ann") (person_row true)) = true
  ↔ 1 = Z.of_nat (length [listed selection_column (JBool false)]).
Proof.
  apply (anchor_follows_selection_prefix selection_id
           (mkCell name_column (JStr "Ann") (person_row true))
           (listed name_column (JStr "Ann"))
           [listed selection_column (JBool false)]
           [listed age_column (JNum 41)] 1).
  - reflexivity.
  - repeat constructor.
  - discriminate.
Defined.

End TableCellFacts.
